(** * express-zod-validator: the [validate] middleware

    A shallow embedding of [src/validate.ts] and [src/types.ts], and the
    properties of the validating dispatcher stated over it.

    The middleware talks to three collaborators that live outside the
    package: zod (schemas and [ZodError]), the express response object and
    the express [next] continuation, and the controller supplied by the
    caller.  Schemas and the controller are values handed to [validate];
    the express side is an interface ([Host]) the development is
    parametric in.  Every call the middleware makes to a collaborator is
    recorded in a chronological log, so that "is invoked", "is not
    attempted" and "responds with" become statements about that log. *)

From stdpp Require Import gmap strings list fin_maps.
From Stdlib Require Import ZArith Lia.

Set Warnings "-register-all".

Local Open Scope Z_scope.
Local Open Scope string_scope.

(** ** JavaScript values *)

Inductive Value : Type :=
| VUndefined
| VNull
| VBool (b : bool)
| VNum (n : Z)
| VStr (s : string)
| VArr (items : list Value)
| VObj (fields : list (string * Value)).

(** An object seen through its own string-keyed properties.  The express
    request is such an object: [body], [query], [params], whatever else
    earlier middleware put there, and the attributes [validate] adds. *)
Abbreviation Request := (gmap string Value).

(** [o.k]: reading a property that is not there gives [undefined]. *)
Definition prop (o : Request) (k : string) : Value :=
  default VUndefined (o !! k).

(** ** zod *)

Record ZodIssue : Type := mkIssue {
  code : string;
  path : list Value;
  message : string
}.

(** What a [throw] can carry: an instance of zod's [ZodError], whose
    [errors] are the issues in the order the schema reported them, or
    any other value (an [Error] object, a string, ...). *)
Inductive Thrown : Type :=
| ZodError (errors : list ZodIssue)
| Other (v : Value).

(** [error instanceof ZodError] *)
Definition instanceof_ZodError (error : Thrown) : bool :=
  match error with
  | ZodError _ => true
  | Other _ => false
  end.

(** How a call ends: it returns, it throws, or it never comes back (for
    an awaited promise: fulfilled, rejected, never settled). *)
Inductive Completion (A : Type) : Type :=
| Normal (a : A)
| Throw (e : Thrown)
| Pending.

Arguments Normal {A} a.
Arguments Throw {A} e.
Arguments Pending {A}.

(** [ZodTypeAny]: all the middleware uses of a schema is [parse]. *)
Record ZodTypeAny : Type := mkSchema {
  parse : Value -> Completion Value
}.

(** [types.ts], [ZodSchemaShape]: three optional schemas. *)
Record ZodSchemaShape : Type := mkShape {
  body : option ZodTypeAny;
  query : option ZodTypeAny;
  params : option ZodTypeAny
}.

(** [Array.prototype.join] on an array of strings. *)
Fixpoint join (sep : string) (l : list string) : string :=
  match l with
  | [] => ""
  | x :: xs =>
      match xs with
      | [] => x
      | _ :: _ => x +:+ sep +:+ join sep xs
      end
  end.

(** ** express *)

(** The express side of a request: [res.status(code)] records the code
    and hands the response back for chaining; [res.json(body)] sends and
    may throw (node refuses headers once a response has gone out);
    [next(error)] enters the framework's error handling. *)
Record Host (W : Type) : Type := mkHost {
  res_status : Z -> W -> W;
  res_json : Value -> W -> W * Completion unit;
  next : Thrown -> W -> W * Completion unit
}.

Arguments res_status {W} _ _ _.
Arguments res_json {W} _ _ _.
Arguments next {W} _ _ _.

(** The three request sections the middleware validates. *)
Inductive Slot : Type := Body | Query | Params.

Global Instance Slot_eq_dec : EqDecision Slot.
Proof. solve_decision. Defined.

(** [types.ts], [ValidatedRequest]: the attribute each section's parsed
    value is stored under. *)
Definition attribute (sl : Slot) : string :=
  match sl with
  | Body => "validatedData"
  | Query => "validatedQuery"
  | Params => "validatedParams"
  end.

(** The schema of a section, and the request property it is run on. *)
Definition schema_of (schemas : ZodSchemaShape) (sl : Slot) : option ZodTypeAny :=
  match sl with
  | Body => body schemas
  | Query => query schemas
  | Params => params schemas
  end.

Definition section_of (sl : Slot) : string :=
  match sl with
  | Body => "body"
  | Query => "query"
  | Params => "params"
  end.

(** What the middleware does to its collaborators, in order. *)
Inductive Event : Type :=
| EParse (sl : Slot) (input : Value)
| EAssign (attr : string) (v : Value)
| EController (r : Request)
| EStatus (status : Z)
| EJson (payload : Value)
| ENext (e : Thrown).

Section Middleware.

Context {W : Type} (H : Host W).

(** The state one invocation works on: the request object (shared with
    the controller), the express side, and the log. *)
Record State : Type := mkState {
  req : Request;
  host : W;
  log : list Event
}.

(** The controller receives the request object, [res] and [next]; it may
    change the request and use the express side as it pleases. *)
Definition Controller : Type := Request -> W -> (Request * W) * Completion unit.

Definition M (A : Type) : Type := State -> State * Completion A.

#[local] Instance M_ret : MRet M := fun A a st => (st, Normal a).

#[local] Instance M_bind : MBind M := fun A B f m st =>
  match m st with
  | (st', Normal a) => f a st'
  | (st', Throw e) => (st', Throw e)
  | (st', Pending) => (st', Pending)
  end.

(** [try { m } catch (error) { handler }] *)
Definition try_catch {A} (m : M A) (handler : Thrown -> M A) : M A := fun st =>
  match m st with
  | (st', Throw e) => handler e st'
  | r => r
  end.

Definition emit (ev : Event) (st : State) : State :=
  mkState (req st) (host st) (log st ++ [ev]).

(** [req.<k>] *)
Definition read (k : string) : M Value := fun st =>
  (st, Normal (prop (req st) k)).

(** [schemas.<sl>.parse(input)] *)
Definition call_parse (sl : Slot) (s : ZodTypeAny) (input : Value) : M Value := fun st =>
  (emit (EParse sl input) st, parse s input).

(** [(req as any).<attr> = v] *)
Definition assign (attr : string) (v : Value) : M unit := fun st =>
  (mkState (<[attr := v]> (req st)) (host st) (log st ++ [EAssign attr v]), Normal tt).

(** [await controller(req as any, res, next)] *)
Definition await_controller (controller : Controller) : M unit := fun st =>
  match controller (req st) (host st) with
  | ((r', w'), c) => (mkState r' w' (log st ++ [EController (req st)]), c)
  end.

(** [res.status(code)] *)
Definition status (c : Z) : M unit := fun st =>
  (mkState (req st) (res_status H c (host st)) (log st ++ [EStatus c]), Normal tt).

(** [.json(payload)] *)
Definition json (payload : Value) : M unit := fun st =>
  let sent := res_json H payload (host st) in
  (mkState (req st) sent.1 (log st ++ [EJson payload]), sent.2).

(** [next(error)] *)
Definition call_next (error : Thrown) : M unit := fun st =>
  let handed := next H error (host st) in
  (mkState (req st) handed.1 (log st ++ [ENext error]), handed.2).

(** The body of the [try] block, [validate.ts] lines 36-51. *)
Definition validate_try (schemas : ZodSchemaShape) (controller : Controller) : M unit :=
  match body schemas with
  | Some s =>
      input ← read "body";
      parsedBody ← call_parse Body s input;
      assign "validatedData" parsedBody
  | None => mret tt
  end;;
  match query schemas with
  | Some s =>
      input ← read "query";
      parsedQuery ← call_parse Query s input;
      assign "validatedQuery" parsedQuery
  | None => mret tt
  end;;
  match params schemas with
  | Some s =>
      input ← read "params";
      parsedParams ← call_parse Params s input;
      assign "validatedParams" parsedParams
  | None => mret tt
  end;;
  await_controller controller.

(** The [catch] clause, [validate.ts] lines 53-61. *)
Definition validate_catch (error : Thrown) : M unit :=
  match error with
  | ZodError errors =>
      let formatted := join ", " (map message errors) in
      status 400;;
      json (VObj [("status", VStr "error"); ("message", VStr formatted)])
  | Other _ => call_next error
  end.

(** The request handler [validate(schemas, controller)] returns. *)
Definition validate (schemas : ZodSchemaShape) (controller : Controller) : M unit :=
  try_catch (validate_try schemas controller) validate_catch.

(** One invocation on a request and an express state, from an empty log.
    The second component is how the promise of the async handler ends:
    [Throw] is a rejection, which only an error raised inside the [catch]
    clause can cause. *)
Definition run (schemas : ZodSchemaShape) (controller : Controller)
    (r : Request) (w : W) : State * Completion unit :=
  validate schemas controller (mkState r w []).

End Middleware.

Arguments req {W} _.
Arguments host {W} _.
Arguments log {W} _.

(** ** Reading the log *)

(** The requests the controller was called with. *)
Definition controller_requests (l : list Event) : list Request :=
  omap (fun ev => match ev with EController r => Some r | _ => None end) l.

(** The sections a schema's [parse] was called for. *)
Definition parsed_slots (l : list Event) : list Slot :=
  omap (fun ev => match ev with EParse sl _ => Some sl | _ => None end) l.

(** The attributes written on the request, with the values written. *)
Definition assigned (l : list Event) : list (string * Value) :=
  omap (fun ev => match ev with EAssign k v => Some (k, v) | _ => None end) l.

(** The status codes set, the payloads sent, the errors handed to [next]. *)
Definition statuses (l : list Event) : list Z :=
  omap (fun ev => match ev with EStatus c => Some c | _ => None end) l.

Definition responses (l : list Event) : list Value :=
  omap (fun ev => match ev with EJson p => Some p | _ => None end) l.

Definition forwarded (l : list Event) : list Thrown :=
  omap (fun ev => match ev with ENext e => Some e | _ => None end) l.

(** The error envelope of a validation failure. *)
Definition envelope (errors : list ZodIssue) : Value :=
  VObj [("status", VStr "error"); ("message", VStr (join ", " (map message errors)))].

(** ** A concrete express and concrete schemas *)

Module Demo.

(** Just enough of an express response: whether headers went out, the
    status code, the payload sent, and what reached the error handler. *)
Record Res : Type := mkRes {
  headersSent : bool;
  statusCode : Z;
  sent : option Value;
  errored : list Thrown
}.

Definition fresh : Res := mkRes false 200 None [].

Definition ERR_HTTP_HEADERS_SENT : Thrown :=
  Other (VObj [("code", VStr "ERR_HTTP_HEADERS_SENT");
               ("message", VStr "Cannot set headers after they are sent to the client")]).

Definition express : Host Res := {|
  res_status c w := mkRes (headersSent w) c (sent w) (errored w);
  res_json p w :=
    if headersSent w then (w, Throw ERR_HTTP_HEADERS_SENT)
    else (mkRes true (statusCode w) (Some p) (errored w), Normal tt);
  next e w := (mkRes (headersSent w) (statusCode w) (sent w) (errored w ++ [e]), Normal tt)
|}.

Fixpoint field (k : string) (fields : list (string * Value)) : Value :=
  match fields with
  | [] => VUndefined
  | (k', v) :: rest => if String.eqb k k' then v else field k rest
  end.

Definition required (k : string) : ZodIssue := mkIssue "invalid_type" [VStr k] "Required".

(** [z.object({ name: z.string().min(1), email: z.string() })] *)
Definition registerSchema : ZodTypeAny := mkSchema (fun v =>
  match v with
  | VObj fields =>
      let name_issues :=
        match field "name" fields with
        | VStr "" => [mkIssue "too_small" [VStr "name"] "String must contain at least 1 character(s)"]
        | VStr _ => []
        | _ => [required "name"]
        end in
      let email_issues :=
        match field "email" fields with
        | VStr _ => []
        | _ => [required "email"]
        end in
      match (name_issues ++ email_issues)%list with
      | [] => Normal (VObj [("name", field "name" fields); ("email", field "email" fields)])
      | issues => Throw (ZodError issues)
      end
  | _ => Throw (ZodError [mkIssue "invalid_type" [] "Expected object, received undefined"])
  end).

(** [z.object({ q: z.string() })] *)
Definition searchQuerySchema : ZodTypeAny := mkSchema (fun v =>
  match v with
  | VObj fields =>
      match field "q" fields with
      | VStr q => Normal (VObj [("q", VStr q)])
      | _ => Throw (ZodError [required "q"])
      end
  | _ => Throw (ZodError [mkIssue "invalid_type" [] "Expected object, received undefined"])
  end).

(** A plain error whose message reads like a validation message. *)
Definition typeError : Thrown :=
  Other (VObj [("name", VStr "TypeError"); ("message", VStr "Required")]).

(** A schema whose refinement callback throws that plain error. *)
Definition brokenSchema : ZodTypeAny := mkSchema (fun _ => Throw typeError).

(** A controller that answers 201 with what it was given. *)
Definition registerUser : Controller (W := Res) := fun r w =>
  match res_json express (prop r "validatedData") (res_status express 201 w) with
  | (w', c) => ((r, w'), c)
  end.

(** A controller that validates something itself and lets the error out. *)
Definition strictController : Controller (W := Res) := fun r w =>
  ((r, w), Throw (ZodError [required "token"])).

(** An ordinary error, and a controller that fails with it. *)
Definition unavailable : Thrown := Other (VStr "database unavailable").

Definition failingController : Controller (W := Res) := fun r w =>
  ((r, w), Throw unavailable).

Definition goodBody : Value := VObj [("name", VStr "Ada"); ("email", VStr "ada@example.org")].

Definition request (b q : Value) : Request :=
  <["body" := b]> (<["query" := q]> (<["params" := VObj []]> (<["method" := VStr "POST"]> ∅))).

(** A response that has already gone out (a timeout middleware answered
    503 and the chain went on). *)
Definition answered : Res := mkRes true 503 (Some (VStr "timeout")) [].

Definition bodyOnly : ZodSchemaShape := mkShape (Some registerSchema) None None.

Definition bodyAndQuery : ZodSchemaShape :=
  mkShape (Some registerSchema) (Some searchQuerySchema) None.

Definition brokenBody : ZodSchemaShape := mkShape (Some brokenSchema) None None.



Definition noQueryRequest : Request := request goodBody (VObj []).

Definition emptyRequest : Request := request (VObj []) (VObj []).

Definition missingFields : list ZodIssue := [required "name"; required "email"].

End Demo.

(** ** Vocabulary of the properties *)

(** A schema passes on an input when it is absent or its [parse] returns. *)
Definition passes (so : option ZodTypeAny) (input : Value) : bool :=
  match so with
  | None => true
  | Some s => match parse s input with Normal _ => true | _ => false end
  end.

(** Every schema present in the set parses its request section. *)
Definition all_valid (schemas : ZodSchemaShape) (r : Request) : bool :=
  passes (body schemas) (prop r "body") &&
  passes (query schemas) (prop r "query") &&
  passes (params schemas) (prop r "params").

(** [Aborts schemas r sl e]: going through body, query, params in that
    order on request [r], the schema of section [sl] is the first one
    that does not pass, and its [parse] throws [e]. *)
Inductive Aborts (schemas : ZodSchemaShape) (r : Request) : Slot -> Thrown -> Prop :=
| AbortsBody s e :
    body schemas = Some s ->
    parse s (prop r "body") = Throw e ->
    Aborts schemas r Body e
| AbortsQuery s e :
    passes (body schemas) (prop r "body") = true ->
    query schemas = Some s ->
    parse s (prop r "query") = Throw e ->
    Aborts schemas r Query e
| AbortsParams s e :
    passes (body schemas) (prop r "body") = true ->
    passes (query schemas) (prop r "query") = true ->
    params schemas = Some s ->
    parse s (prop r "params") = Throw e ->
    Aborts schemas r Params e.

(** Position of a section in the evaluation order. *)
Definition slot_index (sl : Slot) : nat :=
  match sl with
  | Body => 0
  | Query => 1
  | Params => 2
  end.

(** The sections that have a schema, in evaluation order. *)
Definition present (schemas : ZodSchemaShape) : list Slot :=
  (match body schemas with Some _ => [Body] | None => [] end ++
   match query schemas with Some _ => [Query] | None => [] end ++
   match params schemas with Some _ => [Params] | None => [] end)%list.

Definition nonempty {A} (l : list A) : bool :=
  match l with
  | [] => false
  | _ :: _ => true
  end.

(** The three ways an invocation can end, read off its log: the controller
    was the last thing called and it completed; the middleware set a
    status (the 400 branch of the [catch]); the middleware called [next]
    (the other branch). *)
Definition took_success {W} (out : State (W := W) * Completion unit) : bool :=
  match last (log out.1), out.2 with
  | Some (EController _), Normal _ => true
  | _, _ => false
  end.

Definition took_failure {W} (out : State (W := W) * Completion unit) : bool :=
  nonempty (statuses (log out.1)).

Definition took_error {W} (out : State (W := W) * Completion unit) : bool :=
  nonempty (forwarded (log out.1)).

(** The request as the middleware leaves it: what the controller was
    handed, or the final request when the controller was never called. *)
Definition request_left {W} (out : State (W := W) * Completion unit) : Request :=
  match controller_requests (log out.1) with
  | rc :: _ => rc
  | [] => req out.1
  end.





(** ** Auxiliary facts *)

Lemma prop_insert_ne (r : Request) (k k' : string) (v : Value) :
  k ≠ k' -> prop (<[k := v]> r) k' = prop r k'.
Proof. intros Hne. unfold prop. by rewrite lookup_insert_ne. Qed.

Lemma join_cons2 sep x y l : join sep (x :: y :: l) = x +:+ sep +:+ join sep (y :: l).
Proof. reflexivity. Qed.

(** [join] is the standard library's [String.concat]. *)
Lemma join_concat sep l : join sep l = String.concat sep l.
Proof.
  induction l as [|x [|y l] IH]; [reflexivity | reflexivity |].
  rewrite join_cons2, IH. reflexivity.
Qed.

Ltac unfold_run :=
  unfold run, validate, try_catch, validate_try, validate_catch, mbind, M_bind,
    mret, M_ret, read, call_parse, assign, await_controller, status, json,
    call_next, emit.

Ltac tidy := cbn [req host log fst snd body query params app].

(** Settle the next [parse] the execution reaches: by what is known of
    it, or else by cases on how it ends. *)
Ltac step_parse :=
  tidy; rewrite ?prop_insert_ne by done;
  first
    [ match goal with
      | Hp : parse ?s ?i = _ |- context [parse ?s ?i] => rewrite Hp
      end
    | match goal with
      | |- context [match parse ?s ?i with _ => _ end] =>
          destruct (parse s i) as [?|[?|?]|] eqn:?
      end ].

(** The same for the controller and the two fallible express calls. *)
(** The same for the controller. *)
Ltac step_controller :=
  tidy;
  first
    [ match goal with
      | Hc : ?c ?r ?w = _ |- context [match ?c ?r ?w with _ => _ end] => rewrite Hc
      end
    | match goal with
      | |- context [match ?c ?r ?w with _ => _ end] =>
          lazymatch type of c with
          | Controller => destruct (c r w) as [[? ?] [[]|[?|?]|]] eqn:?
          end
      end ].

Ltac run_cases := unfold_run; repeat step_parse; try step_controller; tidy.


(** Turn what is known to pass into what its [parse] returned. *)
Ltac inv_passes :=
  repeat match goal with
         | Hv : passes None _ = true |- _ => clear Hv
         | Hv : passes (Some ?s) ?i = true |- _ =>
             unfold passes in Hv;
             destruct (parse s i) as [?| |] eqn:?; [clear Hv | discriminate Hv ..]
         end.


Ltac by_shape schemas :=
  destruct schemas as [[?sb|] [?sq|] [?sp|]]; cbn [body query params schema_of] in *.

(** ** The middleware on concrete requests *)

Example demo_ok :
  let out := run Demo.express (mkShape (Some Demo.registerSchema) None None) Demo.registerUser
               (Demo.request Demo.goodBody (VObj [])) Demo.fresh in
  log out.1 = [EParse Body Demo.goodBody; EAssign "validatedData" Demo.goodBody;
               EController (<["validatedData" := Demo.goodBody]> (Demo.request Demo.goodBody (VObj [])))]
  /\ Demo.statusCode (host out.1) = 201
  /\ out.2 = Normal tt.
Proof. vm_compute. repeat split. Qed.

Example demo_missing_fields :
  let out := run Demo.express (mkShape (Some Demo.registerSchema) None None) Demo.registerUser
               (Demo.request (VObj []) (VObj [])) Demo.fresh in
  host out.1 = Demo.mkRes true 400
      (Some (VObj [("status", VStr "error"); ("message", VStr "Required, Required")])) []
  /\ controller_requests (log out.1) = [].
Proof. vm_compute. repeat split. Qed.

(** Each of the three endings does occur. *)
Example endings_occur :
  took_success (run Demo.express Demo.bodyOnly Demo.registerUser
                  Demo.noQueryRequest Demo.fresh) = true
  /\ took_failure (run Demo.express Demo.bodyOnly Demo.registerUser
                     Demo.emptyRequest Demo.fresh) = true
  /\ took_error (run Demo.express Demo.brokenBody Demo.registerUser
                   Demo.emptyRequest Demo.fresh) = true.
Proof. vm_compute. repeat split. Qed.

(** A look-alike of a validation error (same message, an [errors]
    property of its own) is still not an instance of [ZodError]. *)
Example look_alike_goes_to_next :
  forwarded
    (log (run Demo.express (mkShape None None None)
            (fun r w => ((r, w), Throw (Other (VObj [("message", VStr "Required");
                                                     ("errors", VArr [])]))))
            Demo.emptyRequest Demo.fresh).1)
  = [Other (VObj [("message", VStr "Required"); ("errors", VArr [])])].
Proof. vm_compute. reflexivity. Qed.

Section Properties.

Context {W : Type} (H : Host W).

Implicit Types (schemas : ZodSchemaShape) (controller : Controller (W := W)).
Implicit Types (r : Request) (w : W).






(** C4. The schemas present are run in the order body, query, params.
    When one of them throws, the schemas after it are not run, neither its
    own attribute nor any later one is written, and the request keeps
    whatever it had there; when what it throws is a validation error, the
    one envelope sent carries that error's messages, whatever the later
    schemas would have said. *)
Theorem fixed_order_first_failure_aborts schemas controller r w :
  let out := run H schemas controller r w in
  parsed_slots (log out.1) `prefix_of` present schemas
  ∧ ∀ sl e, Aborts schemas r sl e ->
      parsed_slots (log out.1)
        = List.filter (fun x => slot_index x <=? slot_index sl)%nat (present schemas)
      ∧ (∀ sl', (slot_index sl < slot_index sl')%nat -> sl' ∉ parsed_slots (log out.1))
      ∧ (∀ sl', (slot_index sl ≤ slot_index sl')%nat ->
           (attribute sl' ∉ (assigned (log out.1)).*1)
           ∧ (req out.1 !! attribute sl' = r !! attribute sl'))
      ∧ (∀ errs, e = ZodError errs -> responses (log out.1) = [envelope errs]).
Proof.
  cbn zeta. split.
  - by_shape schemas; run_cases; unfold present; cbn;
      first [ done | by eexists [] | by eexists [_] | by eexists [_; _] ].
  - intros sl e Hab. inversion Hab; subst; by_shape schemas; simplify_eq; inv_passes.
    all: destruct e; run_cases; unfold present; cbn.
    all: split; [reflexivity|]; split; [|split].
    all: try (intros errs' [= <-]; reflexivity).
    all: try (intros errs' [=]; fail).
    all: intros sl' Hsl'; destruct sl'; cbn in Hsl' |- *; try lia.
    all: try (split; [|by simplify_map_eq]).
    all: apply (bool_decide_unpack _); by vm_compute.
Qed.

(** C10. The middleware writes on the request nothing but
    [validatedData], [validatedQuery] and [validatedParams]: each write is
    the value a present schema's parse returned on its request section,
    each attribute is written at most once, and in the request the
    middleware leaves (the one the controller is handed or, without a
    controller call, the final one) every written attribute holds the
    value written and every other property is as it came in. *)
Theorem dispatcher_writes_only_validated_attributes schemas controller r w :
  let out := run H schemas controller r w in
  (∀ k v, (k, v) ∈ assigned (log out.1) ->
      ∃ sl s, k = attribute sl ∧ schema_of schemas sl = Some s
              ∧ parse s (prop r (section_of sl)) = Normal v)
  ∧ NoDup (assigned (log out.1)).*1
  ∧ (∀ k v, (k, v) ∈ assigned (log out.1) -> request_left out !! k = Some v)
  ∧ (∀ k, k ∉ (assigned (log out.1)).*1 -> request_left out !! k = r !! k).
Proof.
  by_shape schemas; run_cases; unfold request_left; cbn.
  all: split; [|split; [|split]].
  all: try (intros ?k ?u Hin; set_unfold in Hin; destruct_or?; simplify_eq; fail).
  all: try (intros ?k ?u Hin; set_unfold in Hin; destruct_or?; simplify_eq; cbn;
            first [ by exists Body; eexists | by exists Query; eexists
                  | by exists Params; eexists | by simplify_map_eq ]).
  all: try (repeat (constructor; [apply (bool_decide_unpack _); by vm_compute|]);
            constructor; fail).
  all: intros k Hk; set_unfold in Hk; rewrite ?lookup_insert_ne by naive_solver; reflexivity.
Qed.

(** What the [try] block logs never includes a status, a payload or a
    call to [next]: those belong to the [catch] clause. *)
Lemma validate_try_quiet schemas controller r w :
  let st := (validate_try schemas controller (mkState r w [])).1 in
  statuses (log st) = [] ∧ responses (log st) = [] ∧ forwarded (log st) = [].
Proof.
  by_shape schemas; run_cases; repeat split.
Qed.

(** C6. Whatever the [try] block throws, the branch taken depends on
    [instanceof ZodError] alone: an instance gets status 400 and an
    envelope and [next] is not called; anything else, whatever it carries,
    is handed to [next] as it is, and that call is all the middleware does
    with it (no status, no payload, the request untouched). *)
Theorem dispatch_by_error_kind schemas controller r w st e :
  validate_try schemas controller (mkState r w []) = (st, Throw e) ->
  let out := run H schemas controller r w in
  if instanceof_ZodError e
  then statuses (log out.1) = [400]
       ∧ forwarded (log out.1) = []
       ∧ ∃ payload, log out.1 = (log st ++ [EStatus 400; EJson payload])%list
  else log out.1 = (log st ++ [ENext e])%list
       ∧ statuses (log out.1) = []
       ∧ responses (log out.1) = []
       ∧ req out.1 = req st
       ∧ host out.1 = (next H e (host st)).1
       ∧ out.2 = (next H e (host st)).2.
Proof.
  intros Htry.
  pose proof (validate_try_quiet schemas controller r w) as Hquiet.
  rewrite Htry in Hquiet. cbn in Hquiet. destruct Hquiet as (Hs & Hr & Hf).
  cbn zeta. unfold run, validate, try_catch. rewrite Htry.
  destruct e as [errors|v]; cbn [instanceof_ZodError validate_catch].
  - unfold mbind, M_bind, status, json. tidy.
    rewrite <- (assoc_L app). cbn [app].
    unfold statuses, forwarded in *. rewrite !omap_app, Hs, Hf.
    repeat split. by eexists.
  - unfold call_next. tidy.
    unfold statuses, responses in *. rewrite !omap_app, Hs, Hr.
    repeat split.
Qed.

(** C2, as the code has it. An error the controller raises after all
    present schemas validated, and that is not an instance of [ZodError],
    is handed to [next] unchanged; the middleware sets no status and sends
    no payload for it. *)
Theorem handler_error_forwarded schemas controller r w rc r' w' e :
  all_valid schemas r = true ->
  controller_requests (log (run H schemas controller r w).1) = [rc] ->
  controller rc w = ((r', w'), Throw e) ->
  instanceof_ZodError e = false ->
  let out := run H schemas controller r w in
  forwarded (log out.1) = [e]
  ∧ statuses (log out.1) = []
  ∧ responses (log out.1) = []
  ∧ last (log out.1) = Some (ENext e)
  ∧ req out.1 = r'
  ∧ host out.1 = (next H e w').1
  ∧ out.2 = (next H e w').2.
Proof.
  unfold all_valid. intros Hvalid Hrc Hctl Hkind. cbn zeta. revert Hrc Hctl.
  apply andb_true_iff in Hvalid as [Hvalid Hp].
  apply andb_true_iff in Hvalid as [Hb Hq].
  by_shape schemas; inv_passes.
  all: run_cases; intros [= <-] Hctl.
  all: match goal with
       | Hc : ?lhs = (_, _, _), Hd : ?lhs = (_, _, _) |- _ =>
           rewrite Hc in Hd; injection Hd as <- <- Hd
       end.
  all: try discriminate; simplify_eq; try discriminate Hkind.
  all: repeat split.
Qed.

(** C5, as the code has it. A throw that ends the validation steps and
    is not an instance of [ZodError] is handed to [next], with no status
    set and no payload sent.  When the throw is a validation error the
    400 response is built inside the [catch] clause, where nothing catches
    any more: [next] is not called, and the invocation ends the way
    [res.json] ends, so an error raised there leaves the middleware
    uncaught (the promise it returned rejects with it). *)
Theorem validation_phase_error_paths schemas controller r w sl e :
  Aborts schemas r sl e ->
  let out := run H schemas controller r w in
  match e with
  | Other _ =>
      forwarded (log out.1) = [e]
      ∧ statuses (log out.1) = []
      ∧ responses (log out.1) = []
      ∧ controller_requests (log out.1) = []
      ∧ host out.1 = (next H e w).1
      ∧ out.2 = (next H e w).2
  | ZodError errs =>
      forwarded (log out.1) = []
      ∧ host out.1 = (res_json H (envelope errs) (res_status H 400 w)).1
      ∧ out.2 = (res_json H (envelope errs) (res_status H 400 w)).2
  end.
Proof.
  intros Hab. destruct Hab as [s e Hs Hp | s e Hb Hs Hp | s e Hb Hq Hs Hp].
  all: by_shape schemas; simplify_eq; inv_passes.
  all: destruct e; run_cases; repeat split.
Qed.

End Properties.

(** ** Concrete runs *)

(** C2, the claim as stated fails: the controller is called after the body
    validated, raises a [ZodError] of its own, and the middleware answers
    it with the 400 envelope instead of handing it to [next]. *)
Lemma handler_validation_error_answered_400 :
  all_valid Demo.bodyOnly Demo.noQueryRequest = true
  ∧ controller_requests
      (log (run Demo.express Demo.bodyOnly Demo.strictController
              Demo.noQueryRequest Demo.fresh).1)
    = [<["validatedData" := Demo.goodBody]> Demo.noQueryRequest]
  ∧ (Demo.strictController (<["validatedData" := Demo.goodBody]> Demo.noQueryRequest)
       Demo.fresh).2
    = Throw (ZodError [Demo.required "token"])
  ∧ forwarded
      (log (run Demo.express Demo.bodyOnly Demo.strictController
              Demo.noQueryRequest Demo.fresh).1)
    = []
  ∧ statuses
      (log (run Demo.express Demo.bodyOnly Demo.strictController
              Demo.noQueryRequest Demo.fresh).1)
    = [400]
  ∧ Demo.sent
      (host (run Demo.express Demo.bodyOnly Demo.strictController
               Demo.noQueryRequest Demo.fresh).1)
    = Some (VObj [("status", VStr "error"); ("message", VStr "Required")]).
Proof. vm_compute. repeat split. Qed.

(** C5, the claim as stated fails: the body fails validation, [res.json]
    throws while the 400 response is built (headers were already sent),
    and that error is not handed to [next]: the invocation ends with it. *)
Lemma response_error_not_forwarded :
  parse Demo.registerSchema (prop Demo.emptyRequest "body")
    = Throw (ZodError Demo.missingFields)
  ∧ (res_json Demo.express (envelope Demo.missingFields)
       (res_status Demo.express 400 Demo.answered)).2
    = Throw Demo.ERR_HTTP_HEADERS_SENT
  ∧ log (run Demo.express Demo.bodyOnly Demo.registerUser
           Demo.emptyRequest Demo.answered).1
    = [EParse Body (VObj []); EStatus 400; EJson (envelope Demo.missingFields)]
  ∧ forwarded
      (log (run Demo.express Demo.bodyOnly Demo.registerUser
              Demo.emptyRequest Demo.answered).1)
    = []
  ∧ Demo.errored
      (host (run Demo.express Demo.bodyOnly Demo.registerUser
               Demo.emptyRequest Demo.answered).1)
    = []
  ∧ (run Demo.express Demo.bodyOnly Demo.registerUser
       Demo.emptyRequest Demo.answered).2
    = Throw Demo.ERR_HTTP_HEADERS_SENT.
Proof. vm_compute. repeat split. Qed.




(** C2 (amended) on a controller that fails with an ordinary error. *)
Lemma handler_error_forwarded_witness :
  all_valid Demo.bodyOnly Demo.noQueryRequest = true
  ∧ controller_requests
      (log (run Demo.express Demo.bodyOnly Demo.failingController
              Demo.noQueryRequest Demo.fresh).1)
    = [<["validatedData" := Demo.goodBody]> Demo.noQueryRequest]
  ∧ Demo.failingController (<["validatedData" := Demo.goodBody]> Demo.noQueryRequest)
      Demo.fresh
    = ((<["validatedData" := Demo.goodBody]> Demo.noQueryRequest, Demo.fresh),
       Throw Demo.unavailable)
  ∧ instanceof_ZodError Demo.unavailable = false
  ∧ (let out := run Demo.express Demo.bodyOnly Demo.failingController
                  Demo.noQueryRequest Demo.fresh in
     forwarded (log out.1) = [Demo.unavailable]
     ∧ statuses (log out.1) = []
     ∧ responses (log out.1) = []
     ∧ last (log out.1) = Some (ENext Demo.unavailable)
     ∧ req out.1 = <["validatedData" := Demo.goodBody]> Demo.noQueryRequest
     ∧ host out.1 = (next Demo.express Demo.unavailable Demo.fresh).1
     ∧ out.2 = (next Demo.express Demo.unavailable Demo.fresh).2).
Proof.
  split; [vm_compute; reflexivity|]. split; [vm_compute; reflexivity|].
  split; [reflexivity|]. split; [reflexivity|].
  apply (handler_error_forwarded Demo.express Demo.bodyOnly Demo.failingController
           Demo.noQueryRequest Demo.fresh
           (<["validatedData" := Demo.goodBody]> Demo.noQueryRequest)
           (<["validatedData" := Demo.goodBody]> Demo.noQueryRequest)
           Demo.fresh Demo.unavailable).
  - vm_compute; reflexivity.
  - vm_compute; reflexivity.
  - reflexivity.
  - reflexivity.
Defined.

(** C5 (amended) on a schema that throws a plain error. *)
Lemma validation_phase_error_paths_witness :
  Aborts Demo.brokenBody Demo.emptyRequest Body Demo.typeError
  ∧ (let out := run Demo.express Demo.brokenBody Demo.registerUser
                  Demo.emptyRequest Demo.fresh in
     forwarded (log out.1) = [Demo.typeError]
     ∧ statuses (log out.1) = []
     ∧ responses (log out.1) = []
     ∧ controller_requests (log out.1) = []
     ∧ host out.1 = (next Demo.express Demo.typeError Demo.fresh).1
     ∧ out.2 = (next Demo.express Demo.typeError Demo.fresh).2).
Proof.
  assert (Hab : Aborts Demo.brokenBody Demo.emptyRequest Body Demo.typeError).
  { eapply AbortsBody; reflexivity. }
  split; [exact Hab|].
  exact (validation_phase_error_paths Demo.express Demo.brokenBody Demo.registerUser
           Demo.emptyRequest Demo.fresh Body Demo.typeError Hab).
Defined.

(** C6 on a plain error whose message is the text of a validation
    message: it goes to [next] all the same. *)
Lemma dispatch_by_error_kind_witness :
  validate_try Demo.brokenBody Demo.registerUser
      (mkState Demo.emptyRequest Demo.fresh [])
    = (mkState Demo.emptyRequest Demo.fresh [EParse Body (VObj [])],
       Throw Demo.typeError)
  ∧ (let out := run Demo.express Demo.brokenBody Demo.registerUser
                  Demo.emptyRequest Demo.fresh in
     log out.1 = [EParse Body (VObj []); ENext Demo.typeError]
     ∧ statuses (log out.1) = []
     ∧ responses (log out.1) = []
     ∧ req out.1 = Demo.emptyRequest
     ∧ host out.1 = (next Demo.express Demo.typeError Demo.fresh).1
     ∧ out.2 = (next Demo.express Demo.typeError Demo.fresh).2).
Proof.
  assert (Htry : validate_try Demo.brokenBody Demo.registerUser
                   (mkState Demo.emptyRequest Demo.fresh [])
                 = (mkState Demo.emptyRequest Demo.fresh [EParse Body (VObj [])],
                    Throw Demo.typeError)).
  { vm_compute; reflexivity. }
  split; [exact Htry|].
  exact (dispatch_by_error_kind Demo.express Demo.brokenBody Demo.registerUser
           Demo.emptyRequest Demo.fresh _ _ Htry).
Defined.

(** ** Further properties of the middleware *)

Lemma append_assoc (a b c : string) : (a +:+ b) +:+ c = a +:+ (b +:+ c).
Proof.
  induction a as [|ch a IH]; [reflexivity|].
  change (String ch ((a +:+ b) +:+ c) = String ch (a +:+ (b +:+ c))).
  by rewrite IH.
Qed.

(** The message of an error whose issues are those of two non-empty
    lists one after the other is the two messages with one separator in
    between: messages keep their order, and a separator stands between
    two messages only, never first or last. *)
Theorem join_app sep (l1 l2 : list string) :
  l1 ≠ [] -> l2 ≠ [] ->
  join sep (l1 ++ l2)%list = join sep l1 +:+ sep +:+ join sep l2.
Proof.
  intros H1 H2. induction l1 as [|x [|y l1] IH]; [done | |].
  - destruct l2 as [|z l2]; [done|]. reflexivity.
  - change ((x :: y :: l1) ++ l2)%list with (x :: (y :: l1) ++ l2)%list.
    cbn [app]. rewrite !join_cons2.
    change (y :: (l1 ++ l2)%list) with ((y :: l1) ++ l2)%list.
    rewrite IH by done. by rewrite !append_assoc.
Qed.

Lemma join_app_witness :
  ["name: Required"] ≠ [] /\ ["email: Required"; "age: Expected number"] ≠ []
  /\ join ", " (["name: Required"] ++ ["email: Required"; "age: Expected number"])%list
     = join ", " ["name: Required"] +:+ ", "
       +:+ join ", " ["email: Required"; "age: Expected number"].
Proof.
  split; [discriminate|]. split; [discriminate|].
  apply (join_app ", " ["name: Required"] ["email: Required"; "age: Expected number"]);
    discriminate.
Defined.

Section Further.

Context {W : Type} (H : Host W).

Implicit Types (schemas : ZodSchemaShape) (controller : Controller (W := W)).
Implicit Types (r : Request) (w : W).

(** The only status the middleware ever sets is 400 and the only payload
    it ever sends is an error envelope: on any invocation it either sets
    no status and sends nothing, or sets 400 once and sends one envelope
    and does not call [next]; it calls [next] at most once, and never with
    an instance of [ZodError]. *)
Theorem answers_only_with_one_400_envelope schemas controller r w :
  let out := run H schemas controller r w in
  ((statuses (log out.1) = [] ∧ responses (log out.1) = [])
   ∨ (∃ errs, statuses (log out.1) = [400]
              ∧ responses (log out.1) = [envelope errs]
              ∧ forwarded (log out.1) = []))
  ∧ (forwarded (log out.1) = [] ∨ ∃ v, forwarded (log out.1) = [Other v]).
Proof.
  by_shape schemas; run_cases; cbn.
  all: split; first [ by left | by right; eexists ].
Qed.

(** Every [parse] is run on the request section as it came in: what the
    middleware wrote for an earlier schema, or validated attributes the
    request already carried, never feed a later schema. *)
Theorem parses_read_incoming_sections schemas controller r w :
  let out := run H schemas controller r w in
  ∀ sl input, EParse sl input ∈ log out.1 ->
    input = prop r (section_of sl) ∧ is_Some (schema_of schemas sl).
Proof.
  by_shape schemas; run_cases.
  all: intros sl input Hin; set_unfold in Hin; destruct_or?; simplify_eq; try done.
  all: by split.
Qed.

(** Settle how the controller ended from the two facts known about it. *)
Ltac same_controller_call Hctl :=
  match goal with
  | Hc : ?lhs = (_, _, _), Hd : ?lhs = (_, _, _) |- _ =>
      rewrite Hc in Hd; injection Hd as <- <- Hd
  end; try discriminate.

(** When the controller, called after all present schemas passed, throws
    an instance of [ZodError], the middleware answers it like a failed
    validation: status 400 and the envelope of that error's messages, on
    the response as the controller left it; [next] is not called, and the
    invocation ends the way [res.json] ends. *)
Theorem controller_zod_error_answered schemas controller r w rc r' w' errs :
  all_valid schemas r = true ->
  controller_requests (log (run H schemas controller r w).1) = [rc] ->
  controller rc w = ((r', w'), Throw (ZodError errs)) ->
  let out := run H schemas controller r w in
  statuses (log out.1) = [400]
  ∧ responses (log out.1) = [envelope errs]
  ∧ forwarded (log out.1) = []
  ∧ req out.1 = r'
  ∧ host out.1 = (res_json H (envelope errs) (res_status H 400 w')).1
  ∧ out.2 = (res_json H (envelope errs) (res_status H 400 w')).2.
Proof.
  unfold all_valid. intros Hvalid Hrc Hctl. cbn zeta. revert Hrc Hctl.
  apply andb_true_iff in Hvalid as [Hvalid Hp].
  apply andb_true_iff in Hvalid as [Hb Hq].
  by_shape schemas; inv_passes.
  all: run_cases; intros [= <-] Hctl; same_controller_call Hctl.
  all: simplify_eq; repeat split.
Qed.

(** When the controller, called after all present schemas passed, does
    not throw (it completes, or its promise never settles), the middleware
    does nothing more: the invocation ends the way the controller did,
    request and response are as the controller left them, and the
    middleware itself has set no status, sent no payload and not called
    [next].  The controller was handed the response untouched. *)
Theorem nothing_after_the_controller schemas controller r w rc r' w' c :
  all_valid schemas r = true ->
  controller_requests (log (run H schemas controller r w).1) = [rc] ->
  controller rc w = ((r', w'), c) ->
  (∀ e, c ≠ Throw e) ->
  let out := run H schemas controller r w in
  out.2 = c
  ∧ req out.1 = r'
  ∧ host out.1 = w'
  ∧ last (log out.1) = Some (EController rc)
  ∧ statuses (log out.1) = []
  ∧ responses (log out.1) = []
  ∧ forwarded (log out.1) = [].
Proof.
  unfold all_valid. intros Hvalid Hrc Hctl Hc. cbn zeta. revert Hrc Hctl.
  apply andb_true_iff in Hvalid as [Hvalid Hp].
  apply andb_true_iff in Hvalid as [Hb Hq].
  by_shape schemas; inv_passes.
  all: run_cases; intros [= <-] Hctl; same_controller_call Hctl.
  all: simplify_eq; try (by destruct (Hc _ eq_refl)); repeat split.
Qed.

(** A failure does not undo what was written before it: when the schema
    of a section throws, the attribute of every earlier section that has a
    schema holds that schema's parsed value on the request the middleware
    leaves behind. *)
Theorem earlier_attributes_stay schemas controller r w sl e :
  Aborts schemas r sl e ->
  let out := run H schemas controller r w in
  ∀ sl' s', (slot_index sl' < slot_index sl)%nat ->
    schema_of schemas sl' = Some s' ->
    ∃ v, parse s' (prop r (section_of sl')) = Normal v
         ∧ req out.1 !! attribute sl' = Some v
         ∧ (attribute sl', v) ∈ assigned (log out.1).
Proof.
  intros Hab. destruct Hab as [s e Hs Hp | s e Hb Hs Hp | s e Hb Hq Hs Hp].
  all: by_shape schemas; simplify_eq; inv_passes.
  all: destruct e; run_cases.
  all: intros sl' s' Hlt Hs'; destruct sl'; cbn in Hlt, Hs'; try lia; simplify_eq.
  all: eexists; split; [eassumption|]; split; [by simplify_map_eq|].
  all: cbn; set_unfold; naive_solver.
Qed.








End Further.

(** ** Further concrete runs *)

Lemma controller_zod_error_answered_witness :
  all_valid Demo.bodyOnly Demo.noQueryRequest = true
  ∧ controller_requests
      (log (run Demo.express Demo.bodyOnly Demo.strictController
              Demo.noQueryRequest Demo.fresh).1)
    = [<["validatedData" := Demo.goodBody]> Demo.noQueryRequest]
  ∧ Demo.strictController (<["validatedData" := Demo.goodBody]> Demo.noQueryRequest)
      Demo.fresh
    = ((<["validatedData" := Demo.goodBody]> Demo.noQueryRequest, Demo.fresh),
       Throw (ZodError [Demo.required "token"]))
  ∧ (let out := run Demo.express Demo.bodyOnly Demo.strictController
                  Demo.noQueryRequest Demo.fresh in
     statuses (log out.1) = [400]
     ∧ responses (log out.1) = [envelope [Demo.required "token"]]
     ∧ forwarded (log out.1) = []
     ∧ req out.1 = <["validatedData" := Demo.goodBody]> Demo.noQueryRequest
     ∧ host out.1
       = (res_json Demo.express (envelope [Demo.required "token"])
            (res_status Demo.express 400 Demo.fresh)).1
     ∧ out.2
       = (res_json Demo.express (envelope [Demo.required "token"])
            (res_status Demo.express 400 Demo.fresh)).2).
Proof.
  split; [vm_compute; reflexivity|]. split; [vm_compute; reflexivity|].
  split; [reflexivity|].
  apply (controller_zod_error_answered Demo.express Demo.bodyOnly Demo.strictController
           Demo.noQueryRequest Demo.fresh
           (<["validatedData" := Demo.goodBody]> Demo.noQueryRequest)
           (<["validatedData" := Demo.goodBody]> Demo.noQueryRequest)
           Demo.fresh [Demo.required "token"]).
  - vm_compute; reflexivity.
  - vm_compute; reflexivity.
  - reflexivity.
Defined.

Lemma nothing_after_the_controller_witness :
  all_valid Demo.bodyOnly Demo.noQueryRequest = true
  ∧ controller_requests
      (log (run Demo.express Demo.bodyOnly Demo.registerUser
              Demo.noQueryRequest Demo.fresh).1)
    = [<["validatedData" := Demo.goodBody]> Demo.noQueryRequest]
  ∧ Demo.registerUser (<["validatedData" := Demo.goodBody]> Demo.noQueryRequest)
      Demo.fresh
    = ((<["validatedData" := Demo.goodBody]> Demo.noQueryRequest,
        Demo.mkRes true 201 (Some Demo.goodBody) []),
       Normal tt)
  ∧ (∀ e, Normal tt ≠ Throw e)
  ∧ (let out := run Demo.express Demo.bodyOnly Demo.registerUser
                  Demo.noQueryRequest Demo.fresh in
     out.2 = Normal tt
     ∧ req out.1 = <["validatedData" := Demo.goodBody]> Demo.noQueryRequest
     ∧ host out.1 = Demo.mkRes true 201 (Some Demo.goodBody) []
     ∧ last (log out.1)
       = Some (EController (<["validatedData" := Demo.goodBody]> Demo.noQueryRequest))
     ∧ statuses (log out.1) = []
     ∧ responses (log out.1) = []
     ∧ forwarded (log out.1) = []).
Proof.
  split; [vm_compute; reflexivity|]. split; [vm_compute; reflexivity|].
  split; [vm_compute; reflexivity|]. split; [discriminate|].
  apply (nothing_after_the_controller Demo.express Demo.bodyOnly Demo.registerUser
           Demo.noQueryRequest Demo.fresh
           (<["validatedData" := Demo.goodBody]> Demo.noQueryRequest)
           (<["validatedData" := Demo.goodBody]> Demo.noQueryRequest)
           (Demo.mkRes true 201 (Some Demo.goodBody) []) (Normal tt)).
  - vm_compute; reflexivity.
  - vm_compute; reflexivity.
  - vm_compute; reflexivity.
  - discriminate.
Defined.

Lemma earlier_attributes_stay_witness :
  Aborts Demo.bodyAndQuery Demo.noQueryRequest Query (ZodError [Demo.required "q"])
  ∧ (let out := run Demo.express Demo.bodyAndQuery Demo.registerUser
                  Demo.noQueryRequest Demo.fresh in
     ∀ sl' s', (slot_index sl' < slot_index Query)%nat ->
       schema_of Demo.bodyAndQuery sl' = Some s' ->
       ∃ v, parse s' (prop Demo.noQueryRequest (section_of sl')) = Normal v
            ∧ req out.1 !! attribute sl' = Some v
            ∧ (attribute sl', v) ∈ assigned (log out.1)).
Proof.
  assert (Hab : Aborts Demo.bodyAndQuery Demo.noQueryRequest Query
                  (ZodError [Demo.required "q"])).
  { eapply AbortsQuery; [vm_compute; reflexivity | reflexivity | vm_compute; reflexivity]. }
  split; [exact Hab|].
  exact (earlier_attributes_stay Demo.express Demo.bodyAndQuery Demo.registerUser
           Demo.noQueryRequest Demo.fresh Query _ Hab).
Defined.


Lemma parses_read_incoming_sections_witness :
  EParse Body Demo.goodBody
    ∈ log (run Demo.express Demo.bodyAndQuery Demo.registerUser
             Demo.noQueryRequest Demo.fresh).1
  ∧ Demo.goodBody = prop Demo.noQueryRequest (section_of Body)
  ∧ is_Some (schema_of Demo.bodyAndQuery Body).
Proof.
  assert (Hin : EParse Body Demo.goodBody
                  ∈ log (run Demo.express Demo.bodyAndQuery Demo.registerUser
                           Demo.noQueryRequest Demo.fresh).1).
  { vm_compute. constructor. }
  split; [exact Hin|].
  exact (parses_read_incoming_sections Demo.express Demo.bodyAndQuery Demo.registerUser
           Demo.noQueryRequest Demo.fresh Body Demo.goodBody Hin).
Defined.
